(** * T-Weigh LoRaWAN: the LMIC project configuration header

    The repository's source is one C header, [lmic_project_config.h].  It
    has no C code: it is a program of the C preprocessor, a sequence of
    [#ifndef], [#define], [#undef] and [#endif] directives that builds the
    macro table the LMIC stack is compiled against.

    The development embeds the header as its text, line by line, together
    with the part of the preprocessor that the header exercises: the
    line lexer (comment removal, directive recognition) and the directive
    interpreter (macro table, conditional-inclusion stack).  The
    properties of the configuration are then theorems about the macro
    table obtained by including the header. *)

From Stdlib Require Import String Ascii ZArith List Bool.
From stdpp Require Import base option gmap strings.
Import ListNotations.

Local Open Scope Z_scope.

(** ** Characters and line lexing *)

Module Lexer.

Definition is_blank (c : ascii) : bool :=
  (Ascii.eqb c " " || Ascii.eqb c "009")%char.

Definition is_digit (c : ascii) : bool :=
  let n := nat_of_ascii c in (Nat.leb 48 n && Nat.leb n 57)%bool.

Definition is_nonzero_digit (c : ascii) : bool :=
  let n := nat_of_ascii c in (Nat.leb 49 n && Nat.leb n 57)%bool.

Definition is_letter (c : ascii) : bool :=
  let n := nat_of_ascii c in
  ((Nat.leb 65 n && Nat.leb n 90) || (Nat.leb 97 n && Nat.leb n 122))%bool.

(** Characters of a C identifier. *)
Definition is_ident_char (c : ascii) : bool :=
  (is_letter c || is_digit c || Ascii.eqb c "_")%bool.

Fixpoint skip_blanks (s : string) : string :=
  match s with
  | String c s' => if is_blank c then skip_blanks s' else s
  | EmptyString => EmptyString
  end.

(** Drops trailing blanks. *)
Fixpoint rtrim (s : string) : string :=
  match s with
  | EmptyString => EmptyString
  | String c s' =>
      match rtrim s' with
      | EmptyString => if is_blank c then EmptyString else String c EmptyString
      | r => String c r
      end
  end.

(** Translation phase 3 on one line: a [//] comment runs to the end of the
    line and is replaced by nothing.  (The header has neither block
    comments nor string literals.) *)
Fixpoint strip_comment (s : string) : string :=
  match s with
  | String "/" (String "/" _) => EmptyString
  | String c s' => String c (strip_comment s')
  | EmptyString => EmptyString
  end.

(** Longest prefix of identifier characters, and what follows it. *)
Fixpoint take_ident (s : string) : string * string :=
  match s with
  | String c s' =>
      if is_ident_char c
      then let '(i, r) := take_ident s' in (String c i, r)
      else (EmptyString, s)
  | EmptyString => (EmptyString, EmptyString)
  end.

End Lexer.

(** ** Directives *)

(** One logical source line, as the preprocessor sees it. *)
Inductive directive : Type :=
  | Text                                 (* blank, comment or program text *)
  | Ifndef (name : string)
  | Define (name : string) (body : string)
  | Undef (name : string)
  | Endif
  | Unsupported (keyword : string).     (* anything else after [#] *)

(** An object-like [#define]: the name is followed by the end of the line
    or by a blank.  (A parenthesis right after the name would start the
    parameter list of a function-like macro; the header has none.) *)
Definition object_like (rest : string) : bool :=
  match rest with
  | EmptyString => true
  | String c _ => Lexer.is_blank c
  end.

Definition parse_directive (keyword args : string) : directive :=
  let '(name, rest) := Lexer.take_ident (Lexer.skip_blanks args) in
  if String.eqb keyword "ifndef" then
    if String.eqb name "" then Unsupported keyword else Ifndef name
  else if String.eqb keyword "define" then
    if (String.eqb name "" || negb (object_like rest))%bool
    then Unsupported keyword
    else Define name (Lexer.rtrim (Lexer.skip_blanks rest))
  else if String.eqb keyword "undef" then
    if String.eqb name "" then Unsupported keyword else Undef name
  else if String.eqb keyword "endif" then Endif
  else if String.eqb keyword "" then Text          (* null directive [#] *)
  else Unsupported keyword.

Definition parse_line (line : string) : directive :=
  match Lexer.skip_blanks (Lexer.strip_comment line) with
  | String "#" rest =>
      let '(keyword, args) := Lexer.take_ident (Lexer.skip_blanks rest) in
      parse_directive keyword args
  | _ => Text
  end.

(** ** The preprocessor *)

Inductive cpp_error : Type :=
  | EndifWithoutIf
  | UnterminatedConditional
  | UnsupportedDirective (keyword : string).

Inductive result (A : Type) : Type :=
  | Ok (a : A)
  | Error (e : cpp_error).
Arguments Ok {A} a.
Arguments Error {A} e.

#[global] Instance result_ret : MRet result := fun _ a => Ok a.

#[global] Instance result_bind : MBind result := fun _ _ k r =>
  match r with
  | Ok a => k a
  | Error e => Error e
  end.

(** The macro table maps a defined name to its replacement text; a macro
    defined with no replacement text has the empty string.  [groups] is
    the stack of open conditional groups, innermost first; an entry is
    [true] when the lines of that group are being processed. *)
Record cpp_state : Type := CppState {
  macros : gmap string string;
  groups : list bool
}.

Definition active (st : cpp_state) : bool :=
  match groups st with
  | [] => true
  | g :: _ => g
  end.

Definition defined (env : gmap string string) (name : string) : bool :=
  bool_decide (is_Some (env !! name)).

(** One directive.  In a skipped group only the nesting of conditionals is
    followed.  As GCC does, [#define] of a name that is already defined
    replaces its text.  A directive outside the fragment stops the run,
    also in a skipped group, where it could be a conditional whose nesting
    the run would have to follow. *)
Definition step (d : directive) (st : cpp_state) : result cpp_state :=
  match d with
  | Text => Ok st
  | Ifndef name =>
      Ok (CppState (macros st)
            ((active st && negb (defined (macros st) name)) :: groups st))
  | Endif =>
      match groups st with
      | [] => Error EndifWithoutIf
      | _ :: gs => Ok (CppState (macros st) gs)
      end
  | Define name body =>
      if active st
      then Ok (CppState (<[name := body]> (macros st)) (groups st))
      else Ok st
  | Undef name =>
      if active st
      then Ok (CppState (delete name (macros st)) (groups st))
      else Ok st
  | Unsupported keyword => Error (UnsupportedDirective keyword)
  end.

Fixpoint run (ds : list directive) (st : cpp_state) : result cpp_state :=
  match ds with
  | [] => Ok st
  | d :: ds' => st' ← step d st; run ds' st'
  end.

(** [#include] of a file whose lines are [file], with macro table [env]:
    every conditional opened in the file must be closed in it. *)
Definition include (file : list string) (env : gmap string string)
  : result (gmap string string) :=
  st ← run (map parse_line file) (CppState env []);
  match groups st with
  | [] => Ok (macros st)
  | _ :: _ => Error UnterminatedConditional
  end.

(** The header included [n] times in a row. *)
Fixpoint include_times (n : nat) (file : list string)
    (env : gmap string string) : result (gmap string string) :=
  match n with
  | O => Ok env
  | S k => env' ← include file env; include_times k file env'
  end.

(** ** Reading a macro as a number *)

Fixpoint decimal_digits (acc : Z) (s : string) : option Z :=
  match s with
  | EmptyString => Some acc
  | String c s' =>
      if Lexer.is_digit c
      then decimal_digits (10 * acc + (Z.of_nat (nat_of_ascii c) - 48)) s'
      else None
  end.

(** A C decimal constant without suffix: a nonzero digit, then digits. *)
Definition decimal_constant (s : string) : option Z :=
  match s with
  | String c _ => if Lexer.is_nonzero_digit c then decimal_digits 0 s else None
  | EmptyString => None
  end.

Definition macro_value (env : gmap string string) (name : string) : option Z :=
  body ← env !! name; decimal_constant body.

(** ** The header *)

Local Open Scope string_scope.

(** src/lmic_project_config.h, one string per line. *)
Definition lmic_project_config_h : list string := [
  "// LMIC Project Configuration for T-Weigh LoRaWAN";
  "#ifndef _lmic_project_config_h_";
  "#define _lmic_project_config_h_";
  "";
  "// Enable AU915 region";
  "#define CFG_au915 1";
  "";
  "// Disable other regions to save space";
  "#undef CFG_eu868";
  "#undef CFG_us915";
  "";
  "// Select radio chip - SX1262";
  "#define CFG_sx1262_radio 1";
  "#undef CFG_sx1276_radio";
  "#undef CFG_sx1272_radio";
  "//#define CFG_LMIC_REGION_MASK LMIC_REGION_au915";
  "";
  "// Disable unused features";
  "#define DISABLE_PING";
  "#define DISABLE_BEACONS";
  "";
  "// Enable verbose debugging for SX1262 issues";
  "#define LMIC_DEBUG_LEVEL 2";
  "#define LMIC_PRINTF_TO Serial.printf";
  "";
  "// Important for ESP32 timing";
  "#define LMIC_ENABLE_arbitrary_clock_error 1";
  "";
  "// ESP32 specific";
  "#define OSTICKS_PER_SEC 32768";
  "";
  "// Disable LMIC's built-in failure handling";
  "#define LMIC_FAILURE_TO Serial.printf";
  "";
  "// Disable LMIC assertions for debugging";
  "#define DISABLE_LMIC_FAILURE_TO";
  "";
  "// Allow clock error";
  "#define LMIC_CLOCKERROR_PPM 10";
  "";
  "// Use interrupts for better timing";
  "#define LMIC_USE_INTERRUPTS";
  "";
  "// SX1262 specific settings";
  "#define LMIC_SX1262_TXCO_STARTUP_DELAY 5";
  "";
  "// Allow relaxed timing for debugging";
  "#define LMIC_ENABLE_long_messages 1";
  "";
  "#endif"
].

Definition guard : string := "_lmic_project_config_h_".

(** The region and radio flags the header names. *)
Inductive region : Type := AU915 | EU868 | US915.

Definition region_flag (r : region) : string :=
  match r with
  | AU915 => "CFG_au915"
  | EU868 => "CFG_eu868"
  | US915 => "CFG_us915"
  end.

Inductive radio : Type := SX1262 | SX1276 | SX1272.

Definition radio_flag (r : radio) : string :=
  match r with
  | SX1262 => "CFG_sx1262_radio"
  | SX1276 => "CFG_sx1276_radio"
  | SX1272 => "CFG_sx1272_radio"
  end.

(** A macro table as left by an earlier configuration or by [-D] build
    flags: other region and radio flags are set, the header has not been
    seen. *)
Definition stale_flags : gmap string string :=
  {[ "CFG_eu868" := "1"; "CFG_us915" := "1"; "CFG_sx1276_radio" := "1";
     "LMIC_DEBUG_LEVEL" := "0"; "ARDUINO" := "10812" ]}.

(** ** Straight-line directive sequences *)

(** Directives other than conditionals and unsupported ones, and their
    effect on the macro table when they are processed. *)
Definition straight (d : directive) : bool :=
  match d with
  | Text | Define _ _ | Undef _ => true
  | Ifndef _ | Endif | Unsupported _ => false
  end.

Definition apply_directive (env : gmap string string) (d : directive)
  : gmap string string :=
  match d with
  | Define name body => <[name := body]> env
  | Undef name => delete name env
  | _ => env
  end.

(** What a straight-line sequence does to one name, given the name's
    current definition: the last [#define] or [#undef] of it wins. *)
Fixpoint assign (ds : list directive) (n : string) (cur : option string)
  : option string :=
  match ds with
  | [] => cur
  | Define m body :: ds' =>
      assign ds' n (if String.eqb m n then Some body else cur)
  | Undef m :: ds' => assign ds' n (if String.eqb m n then None else cur)
  | _ :: ds' => assign ds' n cur
  end.

(** The names a sequence defines or undefines. *)
Fixpoint mentions (ds : list directive) : list string :=
  match ds with
  | [] => []
  | Define m _ :: ds' => m :: mentions ds'
  | Undef m :: ds' => m :: mentions ds'
  | _ :: ds' => mentions ds'
  end.

(** The lines of the header between [#ifndef] and [#endif]. *)
Definition header_body : list directive :=
  removelast (skipn 2 (map parse_line lmic_project_config_h)).

(** The settings: lines 3 to 49 of the header, all that stands between
    the [#ifndef] line and the [#endif] line. *)
Definition header_settings : list string :=
  removelast (skipn 2 lmic_project_config_h).

(** The header with other lines [ls] in the place of its settings. *)
Definition with_settings (ls : list string) : list string :=
  firstn 2 lmic_project_config_h ++ ls ++ ["#endif"].

(** The header's effect in closed form: the fifteen macros it defines,
    with their replacement text, and the four names it undefines. *)
Definition header_table : gmap string string :=
  list_to_map [
    ("_lmic_project_config_h_", "");
    ("CFG_au915", "1");
    ("CFG_sx1262_radio", "1");
    ("DISABLE_PING", "");
    ("DISABLE_BEACONS", "");
    ("LMIC_DEBUG_LEVEL", "2");
    ("LMIC_PRINTF_TO", "Serial.printf");
    ("LMIC_ENABLE_arbitrary_clock_error", "1");
    ("OSTICKS_PER_SEC", "32768");
    ("LMIC_FAILURE_TO", "Serial.printf");
    ("DISABLE_LMIC_FAILURE_TO", "");
    ("LMIC_CLOCKERROR_PPM", "10");
    ("LMIC_USE_INTERRUPTS", "");
    ("LMIC_SX1262_TXCO_STARTUP_DELAY", "5");
    ("LMIC_ENABLE_long_messages", "1")
  ].

Definition header_undefs : list string :=
  ["CFG_eu868"; "CFG_us915"; "CFG_sx1276_radio"; "CFG_sx1272_radio"].

(** A macro table in which the guard is already defined although the
    header's settings are not there. *)
Definition guarded_flags : gmap string string :=
  <["_lmic_project_config_h_" := ""]> stale_flags.

Local Close Scope string_scope.

(** Settles a goal about the macro table [env'] of a first inclusion from
    the characterisation [Henv] of its lookups. *)
Ltac lookup_in_header Henv :=
  unfold macro_value, defined; rewrite ?Henv;
  repeat match goal with
  | |- context [assign header_body ?n ?cur] =>
      tryif is_var cur then fail else (generalize cur; intro)
  end;
  vm_compute; try reflexivity.

(** ** The interpreter on straight-line code *)

Section Interpreter.

Implicit Types (env : gmap string string) (gs : list bool).
Implicit Types (ds : list directive) (st : cpp_state) (n : string).

Lemma run_app ds1 ds2 st :
  run (ds1 ++ ds2) st = st' ← run ds1 st; run ds2 st'.
Proof.
  revert st. induction ds1 as [|d ds1 IH]; intros st; [reflexivity|].
  cbn [app run]. destruct (step d st) as [st'|e]; [apply IH | reflexivity].
Qed.

Lemma run_straight_active ds env gs :
  forallb straight ds = true ->
  active (CppState env gs) = true ->
  run ds (CppState env gs) = Ok (CppState (foldl apply_directive env ds) gs).
Proof.
  revert env. induction ds as [|d ds IH]; intros env Hs Ha; [reflexivity|].
  cbn [forallb] in Hs. apply andb_prop in Hs as [Hd Hs].
  assert (Hstep : step d (CppState env gs) = Ok (CppState (apply_directive env d) gs)).
  { destruct d; try discriminate Hd; cbn [step apply_directive macros groups];
      rewrite ?Ha; reflexivity. }
  cbn [run foldl]. rewrite Hstep. apply IH; [exact Hs | exact Ha].
Qed.

Lemma run_straight_skipped ds st :
  forallb straight ds = true ->
  active st = false ->
  run ds st = Ok st.
Proof.
  intros Hs Ha. induction ds as [|d ds IH]; [reflexivity|].
  cbn [forallb] in Hs. apply andb_prop in Hs as [Hd Hs].
  assert (Hstep : step d st = Ok st).
  { destruct d; try discriminate Hd; cbn [step]; rewrite ?Ha; reflexivity. }
  cbn [run]. rewrite Hstep. apply IH, Hs.
Qed.

Lemma lookup_foldl_apply ds env n :
  foldl apply_directive env ds !! n = assign ds n (env !! n).
Proof.
  revert env. induction ds as [|d ds IH]; intros env; [reflexivity|].
  cbn [foldl]. rewrite IH. destruct d; cbn [apply_directive assign]; try reflexivity.
  - rewrite lookup_insert. destruct (String.eqb_spec name n) as [->|Hne].
    + rewrite decide_True by reflexivity. reflexivity.
    + rewrite decide_False by exact Hne. reflexivity.
  - rewrite lookup_delete. destruct (String.eqb_spec name n) as [->|Hne].
    + rewrite decide_True by reflexivity. reflexivity.
    + rewrite decide_False by exact Hne. reflexivity.
Qed.

Lemma assign_not_mentioned ds n cur :
  ~ In n (mentions ds) -> assign ds n cur = cur.
Proof.
  revert cur. induction ds as [|d ds IH]; intros cur Hn; [reflexivity|].
  destruct d; cbn [assign mentions] in *; try (apply IH; exact Hn).
  - destruct (String.eqb_spec name n) as [->|Hne].
    + exfalso. apply Hn. left. reflexivity.
    + apply IH. intros Hin. apply Hn. right. exact Hin.
  - destruct (String.eqb_spec name n) as [->|Hne].
    + exfalso. apply Hn. left. reflexivity.
    + apply IH. intros Hin. apply Hn. right. exact Hin.
Qed.

End Interpreter.

(** ** Including the header *)

Section Header.

Implicit Types (env : gmap string string) (n : string).

(** The header is one comment line, then a single [#ifndef guard] group
    of straight-line directives. *)
Lemma header_shape :
  map parse_line lmic_project_config_h
  = Text :: Ifndef guard :: header_body ++ [Endif].
Proof. vm_compute. reflexivity. Qed.

Lemma header_body_straight : forallb straight header_body = true.
Proof. vm_compute. reflexivity. Qed.

Lemma defined_None env n : env !! n = None -> defined env n = false.
Proof. intros H. unfold defined. rewrite H. reflexivity. Qed.

Lemma defined_Some env n b : env !! n = Some b -> defined env n = true.
Proof. intros H. unfold defined. rewrite H. reflexivity. Qed.

(** First inclusion: the group is processed, and every name ends up as
    the body's last directive on it says. *)
Lemma include_header_fresh env :
  env !! guard = None ->
  exists env',
    include lmic_project_config_h env = Ok env' /\
    forall n, env' !! n = assign header_body n (env !! n).
Proof.
  intros Hg. exists (foldl apply_directive env header_body). split.
  - unfold include. rewrite header_shape.
    cbn [run step mbind result_bind active groups macros].
    rewrite (defined_None _ _ Hg). cbn [negb andb].
    rewrite run_app, run_straight_active by (reflexivity || apply header_body_straight).
    reflexivity.
  - intros n. apply lookup_foldl_apply.
Qed.

(** Later inclusions: the guard is defined, the group is skipped. *)
Lemma include_header_guarded env :
  is_Some (env !! guard) ->
  include lmic_project_config_h env = Ok env.
Proof.
  intros [b Hg]. unfold include. rewrite header_shape.
  cbn [run step mbind result_bind active groups macros].
  rewrite (defined_Some _ _ _ Hg). cbn [negb andb].
  rewrite run_app, run_straight_skipped by (reflexivity || apply header_body_straight).
  reflexivity.
Qed.

(** The header defines its guard. *)
Lemma header_defines_guard cur : is_Some (assign header_body guard cur).
Proof. vm_compute. eexists. reflexivity. Qed.

End Header.

(** ** The model on concrete inputs *)

Example parse_define_value :
  parse_line "#define OSTICKS_PER_SEC 32768" = Define "OSTICKS_PER_SEC" "32768".
Proof. reflexivity. Qed.

Example parse_define_empty :
  parse_line "#define DISABLE_PING" = Define "DISABLE_PING" "".
Proof. reflexivity. Qed.

Example parse_commented_out_define :
  parse_line "//#define CFG_LMIC_REGION_MASK LMIC_REGION_au915" = Text.
Proof. reflexivity. Qed.

Example parse_function_like_refused :
  parse_line "#define F(x) x" = Unsupported "define".
Proof. reflexivity. Qed.

Example include_unterminated :
  include ["#ifndef A"; "#define A"]%string ∅ = Error UnterminatedConditional.
Proof. reflexivity. Qed.

Example include_stray_endif :
  include ["#endif"]%string ∅ = Error EndifWithoutIf.
Proof. reflexivity. Qed.

(** Over stale flags the header clears the other region and raises the
    debug level it finds. *)
Example include_over_stale_flags :
  (env ← include lmic_project_config_h stale_flags;
   Ok (env !! "CFG_eu868", env !! "LMIC_DEBUG_LEVEL", env !! "ARDUINO"))
  = Ok (None, Some "2"%string, Some "10812"%string).
Proof. vm_compute. reflexivity. Qed.

Example include_three_times :
  include_times 3 lmic_project_config_h stale_flags
  = include lmic_project_config_h stale_flags.
Proof. vm_compute. reflexivity. Qed.

(** ** The configuration *)

(** C1. Included into any macro table that has not seen the header, the
    configuration selects the AU915 region and no other: [CFG_au915] is
    defined with value 1, [CFG_eu868] and [CFG_us915] are undefined, of
    the region flags only AU915's is set, and the header sets no further
    [CFG_] flag besides the radio's. *)
Theorem config_region_au915 (env : gmap string string) :
  env !! guard = None ->
  exists env',
    include lmic_project_config_h env = Ok env' /\
    macro_value env' "CFG_au915" = Some 1 /\
    env' !! "CFG_eu868" = None /\
    env' !! "CFG_us915" = None /\
    (forall r : region, defined env' (region_flag r) = true <-> r = AU915) /\
    (forall n : string,
        String.prefix "CFG_" n = true ->
        n <> "CFG_au915" -> n <> "CFG_sx1262_radio" ->
        env !! n = None -> env' !! n = None).
Proof.
  intros Hg. destruct (include_header_fresh env Hg) as (env' & Hinc & Henv).
  exists env'. split; [exact Hinc|].
  split; [lookup_in_header Henv|].
  split; [lookup_in_header Henv|].
  split; [lookup_in_header Henv|].
  split.
  - intros r. split.
    + destruct r; [reflexivity | |]; lookup_in_header Henv; discriminate.
    + intros ->. lookup_in_header Henv.
  - intros n Hpre Hau Hsx Hn. rewrite Henv, Hn.
    destruct (in_dec string_dec n (mentions header_body)) as [Hin|Hout].
    + vm_compute in Hin.
      repeat (destruct Hin as [<-|Hin]; [first [ discriminate Hpre | congruence | reflexivity ] |]).
      destruct Hin.
    + apply assign_not_mentioned, Hout.
Qed.

Lemma config_region_au915_witness :
  stale_flags !! guard = None /\
  exists env',
    include lmic_project_config_h stale_flags = Ok env' /\
    macro_value env' "CFG_au915" = Some 1 /\
    env' !! "CFG_eu868" = None /\
    env' !! "CFG_us915" = None /\
    (forall r : region, defined env' (region_flag r) = true <-> r = AU915) /\
    (forall n : string,
        String.prefix "CFG_" n = true ->
        n <> "CFG_au915" -> n <> "CFG_sx1262_radio" ->
        stale_flags !! n = None -> env' !! n = None).
Proof.
  split; [reflexivity | apply (config_region_au915 stale_flags); reflexivity].
Defined.

(** C2. The configuration selects the SX1262 transceiver and no other:
    [CFG_sx1262_radio] is defined with value 1, [CFG_sx1276_radio] and
    [CFG_sx1272_radio] are undefined. *)
Theorem config_radio_sx1262 (env : gmap string string) :
  env !! guard = None ->
  exists env',
    include lmic_project_config_h env = Ok env' /\
    macro_value env' "CFG_sx1262_radio" = Some 1 /\
    env' !! "CFG_sx1276_radio" = None /\
    env' !! "CFG_sx1272_radio" = None /\
    (forall r : radio, defined env' (radio_flag r) = true <-> r = SX1262).
Proof.
  intros Hg. destruct (include_header_fresh env Hg) as (env' & Hinc & Henv).
  exists env'. split; [exact Hinc|].
  do 3 (split; [lookup_in_header Henv|]).
  intros r. split.
  - destruct r; [reflexivity | |]; lookup_in_header Henv; discriminate.
  - intros ->. lookup_in_header Henv.
Qed.

Lemma config_radio_sx1262_witness :
  stale_flags !! guard = None /\
  exists env',
    include lmic_project_config_h stale_flags = Ok env' /\
    macro_value env' "CFG_sx1262_radio" = Some 1 /\
    env' !! "CFG_sx1276_radio" = None /\
    env' !! "CFG_sx1272_radio" = None /\
    (forall r : radio, defined env' (radio_flag r) = true <-> r = SX1262).
Proof.
  split; [reflexivity | apply (config_radio_sx1262 stale_flags); reflexivity].
Defined.

(** C3. The configuration is Class-A only: [DISABLE_PING] and
    [DISABLE_BEACONS] are both defined (with no replacement text). *)
Theorem config_class_a_only (env : gmap string string) :
  env !! guard = None ->
  exists env',
    include lmic_project_config_h env = Ok env' /\
    defined env' "DISABLE_PING" = true /\
    defined env' "DISABLE_BEACONS" = true /\
    env' !! "DISABLE_PING" = Some ""%string /\
    env' !! "DISABLE_BEACONS" = Some ""%string.
Proof.
  intros Hg. destruct (include_header_fresh env Hg) as (env' & Hinc & Henv).
  exists env'. split; [exact Hinc|].
  do 3 (split; [lookup_in_header Henv|]). lookup_in_header Henv.
Qed.

Lemma config_class_a_only_witness :
  stale_flags !! guard = None /\
  exists env',
    include lmic_project_config_h stale_flags = Ok env' /\
    defined env' "DISABLE_PING" = true /\
    defined env' "DISABLE_BEACONS" = true /\
    env' !! "DISABLE_PING" = Some ""%string /\
    env' !! "DISABLE_BEACONS" = Some ""%string.
Proof.
  split; [reflexivity | apply (config_class_a_only stale_flags); reflexivity].
Defined.

(** C4. The clock-error tolerance is 10 ppm: [LMIC_CLOCKERROR_PPM] has
    value 10, and [LMIC_ENABLE_arbitrary_clock_error] has value 1. *)
Theorem config_clock_error_10ppm (env : gmap string string) :
  env !! guard = None ->
  exists env',
    include lmic_project_config_h env = Ok env' /\
    macro_value env' "LMIC_CLOCKERROR_PPM" = Some 10 /\
    macro_value env' "LMIC_ENABLE_arbitrary_clock_error" = Some 1.
Proof.
  intros Hg. destruct (include_header_fresh env Hg) as (env' & Hinc & Henv).
  exists env'. split; [exact Hinc|].
  split; lookup_in_header Henv.
Qed.

Lemma config_clock_error_10ppm_witness :
  stale_flags !! guard = None /\
  exists env',
    include lmic_project_config_h stale_flags = Ok env' /\
    macro_value env' "LMIC_CLOCKERROR_PPM" = Some 10 /\
    macro_value env' "LMIC_ENABLE_arbitrary_clock_error" = Some 1.
Proof.
  split; [reflexivity | apply (config_clock_error_10ppm stale_flags); reflexivity].
Defined.

(** C5. Timing is interrupt-driven: [LMIC_USE_INTERRUPTS] is defined. *)
Theorem config_uses_interrupts (env : gmap string string) :
  env !! guard = None ->
  exists env',
    include lmic_project_config_h env = Ok env' /\
    defined env' "LMIC_USE_INTERRUPTS" = true.
Proof.
  intros Hg. destruct (include_header_fresh env Hg) as (env' & Hinc & Henv).
  exists env'. split; [exact Hinc|]. lookup_in_header Henv.
Qed.

Lemma config_uses_interrupts_witness :
  stale_flags !! guard = None /\
  exists env',
    include lmic_project_config_h stale_flags = Ok env' /\
    defined env' "LMIC_USE_INTERRUPTS" = true.
Proof.
  split; [reflexivity | apply (config_uses_interrupts stale_flags); reflexivity].
Defined.

(** C6. The configuration defines [DISABLE_LMIC_FAILURE_TO] and, in the
    same macro table, asks for debug output at level 2 through
    [Serial.printf] and names [Serial.printf] as the failure output
    [LMIC_FAILURE_TO]: the destination of failure output and the flag
    disabling it are set together. *)
Theorem config_failure_policy (env : gmap string string) :
  env !! guard = None ->
  exists env',
    include lmic_project_config_h env = Ok env' /\
    defined env' "DISABLE_LMIC_FAILURE_TO" = true /\
    macro_value env' "LMIC_DEBUG_LEVEL" = Some 2 /\
    env' !! "LMIC_PRINTF_TO" = Some "Serial.printf"%string /\
    env' !! "LMIC_FAILURE_TO" = Some "Serial.printf"%string.
Proof.
  intros Hg. destruct (include_header_fresh env Hg) as (env' & Hinc & Henv).
  exists env'. split; [exact Hinc|].
  do 3 (split; [lookup_in_header Henv|]). lookup_in_header Henv.
Qed.

Lemma config_failure_policy_witness :
  stale_flags !! guard = None /\
  exists env',
    include lmic_project_config_h stale_flags = Ok env' /\
    defined env' "DISABLE_LMIC_FAILURE_TO" = true /\
    macro_value env' "LMIC_DEBUG_LEVEL" = Some 2 /\
    env' !! "LMIC_PRINTF_TO" = Some "Serial.printf"%string /\
    env' !! "LMIC_FAILURE_TO" = Some "Serial.printf"%string.
Proof.
  split; [reflexivity | apply (config_failure_policy stale_flags); reflexivity].
Defined.

(** C9. The tick rate is fixed at 32768 ticks per second:
    [OSTICKS_PER_SEC] has value 32768. *)
Theorem config_osticks_per_sec (env : gmap string string) :
  env !! guard = None ->
  exists env',
    include lmic_project_config_h env = Ok env' /\
    macro_value env' "OSTICKS_PER_SEC" = Some 32768.
Proof.
  intros Hg. destruct (include_header_fresh env Hg) as (env' & Hinc & Henv).
  exists env'. split; [exact Hinc|]. lookup_in_header Henv.
Qed.

Lemma config_osticks_per_sec_witness :
  stale_flags !! guard = None /\
  exists env',
    include lmic_project_config_h stale_flags = Ok env' /\
    macro_value env' "OSTICKS_PER_SEC" = Some 32768.
Proof.
  split; [reflexivity | apply (config_osticks_per_sec stale_flags); reflexivity].
Defined.

(** C10. Inclusion is idempotent.  Whatever the macro table, including
    the header succeeds, and including it any number of further times
    gives exactly the macro table of the first inclusion: after the first
    the include guard is defined and the whole group is skipped. *)
Theorem include_guard_idempotent (env : gmap string string) :
  exists env',
    include lmic_project_config_h env = Ok env' /\
    is_Some (env' !! guard) /\
    include lmic_project_config_h env' = Ok env' /\
    forall k : nat, include_times (S k) lmic_project_config_h env = Ok env'.
Proof.
  assert (Hfix : forall (m : gmap string string) (k : nat),
             is_Some (m !! guard) ->
             include_times k lmic_project_config_h m = Ok m).
  { intros m k Hm. induction k as [|k IH]; [reflexivity|].
    cbn [include_times]. rewrite (include_header_guarded m Hm). exact IH. }
  assert (Hfirst : exists env',
             include lmic_project_config_h env = Ok env' /\ is_Some (env' !! guard)).
  { destruct (env !! guard) as [b|] eqn:Hg.
    - exists env. split; [apply include_header_guarded|]; rewrite Hg; eexists; reflexivity.
    - destruct (include_header_fresh env Hg) as (env' & Hinc & Henv).
      exists env'. split; [exact Hinc|]. rewrite Henv. apply header_defines_guard. }
  destruct Hfirst as (env' & Hinc & Hg'). exists env'.
  split; [exact Hinc|]. split; [exact Hg'|].
  split; [apply include_header_guarded, Hg'|].
  intros k. cbn [include_times]. rewrite Hinc. apply (Hfix env' k Hg').
Qed.

(** ** The header as a whole *)

Section Whole.

Implicit Types (env : gmap string string) (n : string) (ds : list directive).

Lemma header_table_run : foldl apply_directive ∅ header_body = header_table.
Proof. vm_compute. reflexivity. Qed.

Lemma header_table_lookup n : header_table !! n = assign header_body n None.
Proof. rewrite <- header_table_run, lookup_foldl_apply, lookup_empty. reflexivity. Qed.

Lemma lookup_foldr_delete env (l : list string) n :
  foldr delete env l !! n = if bool_decide (n ∈ l) then None else env !! n.
Proof.
  induction l as [|m l IH]; cbn [foldr]; [reflexivity|].
  rewrite lookup_delete. destruct (decide (m = n)) as [->|Hne].
  - rewrite bool_decide_eq_true_2 by (apply list_elem_of_here). reflexivity.
  - rewrite IH. destruct (bool_decide (n ∈ l)) eqn:Hl.
    + apply bool_decide_eq_true_1 in Hl.
      rewrite bool_decide_eq_true_2 by (apply list_elem_of_further, Hl). reflexivity.
    + apply bool_decide_eq_false_1 in Hl.
      rewrite bool_decide_eq_false_2; [reflexivity|].
      intros Hin. apply elem_of_cons in Hin as [Heq|Hin];
        [apply Hne; symmetry; exact Heq | exact (Hl Hin)].
Qed.

(** Every name, through the header: the closed form agrees with the body. *)
Lemma header_closed_form_lookup env n :
  assign header_body n (env !! n)
  = (header_table ∪ foldr delete env header_undefs) !! n.
Proof.
  rewrite lookup_union, header_table_lookup, lookup_foldr_delete.
  destruct (in_dec string_dec n (mentions header_body)) as [Hin|Hout].
  - vm_compute in Hin.
    repeat (destruct Hin as [<-|Hin];
            [match goal with |- context [env !! ?k] => generalize (env !! k) end;
             intros [b|]; vm_compute; reflexivity |]).
    destruct Hin.
  - rewrite !(assign_not_mentioned _ _ _ Hout).
    rewrite bool_decide_eq_false_2.
    + destruct (env !! n); reflexivity.
    + intros Hin. apply Hout. apply list_elem_of_In in Hin.
      vm_compute in Hin. vm_compute.
      repeat (destruct Hin as [<-|Hin]; [tauto|]). destruct Hin.
Qed.

(** Reordering directives that touch distinct names changes nothing. *)
Lemma mentions_perm ds ds' :
  Permutation ds ds' -> Permutation (mentions ds) (mentions ds').
Proof.
  induction 1 as [|d l l' _ IH|d1 d2 l|l l' l'' _ IH1 _ IH2].
  - constructor.
  - destruct d; cbn [mentions]; try exact IH; constructor; exact IH.
  - destruct d1, d2; cbn [mentions]; try reflexivity; apply perm_swap.
  - etransitivity; eassumption.
Qed.

Lemma assign_perm ds ds' :
  Permutation ds ds' -> NoDup (mentions ds) ->
  forall n cur, assign ds n cur = assign ds' n cur.
Proof.
  induction 1 as [|d l l' _ IH|d1 d2 l|l l' l'' H1 IH1 _ IH2]; intros Hnd n cur.
  - reflexivity.
  - destruct d; cbn [assign mentions] in *; try (apply IH; exact Hnd);
      apply IH; apply NoDup_cons_1_2 in Hnd; exact Hnd.
  - assert (Hne : forall (a b : string) rest, NoDup (a :: b :: rest) -> a <> b).
    { intros a b rest Hab ->. apply NoDup_cons_1_1 in Hab. apply Hab. left. }
    destruct d1, d2; cbn [assign mentions] in *; try reflexivity;
      apply Hne in Hnd;
      destruct (String.eqb_spec name n), (String.eqb_spec name0 n);
      try reflexivity; congruence.
  - rewrite IH1 by exact Hnd. apply IH2.
    rewrite <- (mentions_perm _ _ H1). exact Hnd.
Qed.

Lemma straight_perm ds ds' :
  Permutation ds ds' ->
  forallb straight ds = true -> forallb straight ds' = true.
Proof.
  intros Hp Hs. apply forallb_forall. intros d Hd.
  eapply forallb_forall in Hs; [exact Hs|].
  eapply Permutation_in; [symmetry; exact Hp | exact Hd].
Qed.

(** A file made of a comment line and one [#ifndef guard] group of
    straight-line directives. *)
Lemma run_guarded_group ds env :
  forallb straight ds = true ->
  run (Text :: Ifndef guard :: ds ++ [Endif]) (CppState env [])
  = Ok (CppState (if defined env guard then env
                  else foldl apply_directive env ds) []).
Proof.
  intros Hs. cbn [run step mbind result_bind active groups macros andb].
  rewrite run_app. destruct (defined env guard); cbn [negb].
  - rewrite run_straight_skipped by (exact Hs || reflexivity). reflexivity.
  - rewrite run_straight_active by (exact Hs || reflexivity). reflexivity.
Qed.

Lemma header_settings_parse : map parse_line header_settings = header_body.
Proof. vm_compute. reflexivity. Qed.

Lemma header_names_distinct : NoDup (mentions header_body).
Proof. apply (bool_decide_unpack _). vm_compute. exact I. Qed.

End Whole.

(** X1. The header touches no name but its own: a name that is neither
    one of the fifteen it defines nor one of the four it undefines has,
    after inclusion, the definition it had before. *)
Theorem header_leaves_other_names (env : gmap string string) (n : string) :
  env !! guard = None ->
  header_table !! n = None ->
  n ∉ header_undefs ->
  exists env',
    include lmic_project_config_h env = Ok env' /\
    env' !! n = env !! n.
Proof.
  intros Hg Hdef Hundef.
  destruct (include_header_fresh env Hg) as (env' & Hinc & Henv).
  exists env'. split; [exact Hinc|].
  rewrite Henv, header_closed_form_lookup, lookup_union, Hdef, lookup_foldr_delete.
  rewrite bool_decide_eq_false_2 by exact Hundef.
  destruct (env !! n); reflexivity.
Qed.

Lemma header_leaves_other_names_witness :
  stale_flags !! guard = None /\
  header_table !! "ARDUINO"%string = None /\
  ("ARDUINO"%string ∉ header_undefs) /\
  exists env',
    include lmic_project_config_h stale_flags = Ok env' /\
    env' !! "ARDUINO"%string = stale_flags !! "ARDUINO"%string.
Proof.
  assert (Hu : "ARDUINO"%string ∉ header_undefs)
    by (apply (bool_decide_unpack _); vm_compute; exact I).
  split; [reflexivity|]. split; [reflexivity|]. split; [exact Hu|].
  apply (header_leaves_other_names stale_flags "ARDUINO"); [reflexivity | reflexivity | exact Hu].
Defined.

(** X2. The header's effect in closed form.  Included into any macro
    table that has not seen the guard, it yields that table without
    [CFG_eu868], [CFG_us915], [CFG_sx1276_radio] and [CFG_sx1272_radio],
    overlaid with its fifteen definitions; earlier definitions of those
    fifteen names are replaced. *)
Theorem include_header_closed_form (env : gmap string string) :
  env !! guard = None ->
  include lmic_project_config_h env
  = Ok (header_table ∪ foldr delete env header_undefs).
Proof.
  intros Hg. destruct (include_header_fresh env Hg) as (env' & Hinc & Henv).
  rewrite Hinc. f_equal. apply map_eq. intros n.
  rewrite Henv. apply header_closed_form_lookup.
Qed.

Lemma include_header_closed_form_witness :
  stale_flags !! guard = None /\
  include lmic_project_config_h stale_flags
  = Ok (header_table ∪ foldr delete stale_flags header_undefs).
Proof.
  split; [reflexivity | apply (include_header_closed_form stale_flags); reflexivity].
Defined.

(** X3. The two remaining settings: the SX1262 TCXO start-up delay
    [LMIC_SX1262_TXCO_STARTUP_DELAY] has value 5, and long messages are
    enabled, [LMIC_ENABLE_long_messages] has value 1. *)
Theorem config_txco_delay_and_long_messages (env : gmap string string) :
  env !! guard = None ->
  exists env',
    include lmic_project_config_h env = Ok env' /\
    macro_value env' "LMIC_SX1262_TXCO_STARTUP_DELAY" = Some 5 /\
    macro_value env' "LMIC_ENABLE_long_messages" = Some 1.
Proof.
  intros Hg. destruct (include_header_fresh env Hg) as (env' & Hinc & Henv).
  exists env'. split; [exact Hinc|].
  split; lookup_in_header Henv.
Qed.

Lemma config_txco_delay_and_long_messages_witness :
  stale_flags !! guard = None /\
  exists env',
    include lmic_project_config_h stale_flags = Ok env' /\
    macro_value env' "LMIC_SX1262_TXCO_STARTUP_DELAY" = Some 5 /\
    macro_value env' "LMIC_ENABLE_long_messages" = Some 1.
Proof.
  split; [reflexivity
         | apply (config_txco_delay_and_long_messages stale_flags); reflexivity].
Defined.

(** X4. The region mask is not configured: the [#define] of
    [CFG_LMIC_REGION_MASK] on line 16 is commented out, so the header
    leaves that name, and the [LMIC_REGION_au915] it would have named, as
    they were; from a table without them both stay undefined. *)
Theorem config_region_mask_untouched (env : gmap string string) :
  env !! guard = None ->
  exists env',
    include lmic_project_config_h env = Ok env' /\
    env' !! "CFG_LMIC_REGION_MASK"%string = env !! "CFG_LMIC_REGION_MASK"%string /\
    env' !! "LMIC_REGION_au915"%string = env !! "LMIC_REGION_au915"%string /\
    (defined env "CFG_LMIC_REGION_MASK" = false ->
     defined env' "CFG_LMIC_REGION_MASK" = false).
Proof.
  intros Hg. destruct (include_header_fresh env Hg) as (env' & Hinc & Henv).
  exists env'. split; [exact Hinc|].
  assert (Hmask : env' !! "CFG_LMIC_REGION_MASK"%string
                  = env !! "CFG_LMIC_REGION_MASK"%string).
  { rewrite Henv. apply assign_not_mentioned. vm_compute. intuition discriminate. }
  split; [exact Hmask|]. split.
  - rewrite Henv. apply assign_not_mentioned. vm_compute. intuition discriminate.
  - unfold defined. rewrite Hmask. trivial.
Qed.

Lemma config_region_mask_untouched_witness :
  stale_flags !! guard = None /\
  exists env',
    include lmic_project_config_h stale_flags = Ok env' /\
    env' !! "CFG_LMIC_REGION_MASK"%string
      = stale_flags !! "CFG_LMIC_REGION_MASK"%string /\
    env' !! "LMIC_REGION_au915"%string = stale_flags !! "LMIC_REGION_au915"%string /\
    (defined stale_flags "CFG_LMIC_REGION_MASK" = false ->
     defined env' "CFG_LMIC_REGION_MASK" = false).
Proof.
  split; [reflexivity | apply (config_region_mask_untouched stale_flags); reflexivity].
Defined.

(** X5. When the guard is already defined the header configures nothing:
    inclusion succeeds and returns the macro table unchanged, whatever it
    holds, stale region flags included. *)
Theorem header_skipped_when_guard_defined (env : gmap string string) :
  is_Some (env !! guard) ->
  include lmic_project_config_h env = Ok env.
Proof.
  intros [b Hg]. unfold include. rewrite header_shape.
  rewrite (run_guarded_group _ _ header_body_straight).
  rewrite (defined_Some _ _ _ Hg). reflexivity.
Qed.

Lemma header_skipped_when_guard_defined_witness :
  is_Some (guarded_flags !! guard) /\
  include lmic_project_config_h guarded_flags = Ok guarded_flags /\
  guarded_flags !! "CFG_eu868"%string = Some "1"%string /\
  guarded_flags !! "CFG_au915"%string = None.
Proof.
  assert (Hg : is_Some (guarded_flags !! guard)) by (eexists; reflexivity).
  split; [exact Hg|].
  split; [apply (header_skipped_when_guard_defined guarded_flags Hg)|].
  split; reflexivity.
Defined.

(** X6. The order of the settings is irrelevant.  No name is defined or
    undefined twice between [#ifndef] and [#endif], so the header with its
    lines 3 to 49 in any other order gives, for every macro table, the
    result of the header as written. *)
Theorem settings_order_irrelevant (env : gmap string string) (ls : list string) :
  Permutation ls header_settings ->
  include (with_settings ls) env = include lmic_project_config_h env.
Proof.
  intros Hp.
  assert (Hds : Permutation (map parse_line ls) header_body).
  { rewrite <- header_settings_parse. apply Permutation_map, Hp. }
  assert (Hs : forallb straight (map parse_line ls) = true).
  { eapply straight_perm; [symmetry; exact Hds | apply header_body_straight]. }
  unfold include at 1. unfold with_settings. rewrite !map_app.
  change (map parse_line (firstn 2 lmic_project_config_h)) with [Text; Ifndef guard].
  change (map parse_line ["#endif"%string]) with [Endif].
  cbn [app]. rewrite (run_guarded_group _ _ Hs).
  unfold include. rewrite header_shape.
  rewrite (run_guarded_group _ _ header_body_straight).
  cbn [mbind result_bind groups macros].
  destruct (defined env guard); [reflexivity|].
  f_equal. apply map_eq. intros n. rewrite !lookup_foldl_apply.
  symmetry. apply assign_perm; [symmetry; exact Hds | apply header_names_distinct].
Qed.

Lemma settings_order_irrelevant_witness :
  Permutation (rev header_settings) header_settings /\
  include (with_settings (rev header_settings)) stale_flags
  = include lmic_project_config_h stale_flags.
Proof.
  assert (Hp : Permutation (rev header_settings) header_settings)
    by (symmetry; apply Permutation_rev).
  split; [exact Hp | apply (settings_order_irrelevant stale_flags _ Hp)].
Defined.
